(** * The word-count tool of [sample_agent.py]

    A shallow embedding of [count_words] and of the fragment of Python it
    runs on: [str] values as sequences of Unicode code points, the built-in
    [str.strip()], [str.split()] and [len], attribute lookup and method
    calls on values of other types, whose code runs in the state of the
    world, and the [try ... except Exception] block that turns a fault that
    is an [Exception] into an error-shaped [WordCountResult]. *)

From Equations Require Import Equations.
From Stdlib Require Import Strings.String Strings.Ascii.
From Stdlib Require Import List Arith ZArith NArith Bool Lia Permutation.
Import ListNotations.

Set Warnings "-register-all".

(** ** Python strings *)

(** A Python [str] is an immutable sequence of Unicode code points. *)
Definition codepoint := N.
Definition str := list codepoint.

(** A string literal of the source, all of whose characters are ASCII. *)
Definition lit (s : string) : str := map N_of_ascii (list_ascii_of_string s).

(** [Py_UNICODE_ISSPACE]: the code points [str.isspace], and with it the
    argument-less [strip] and [split], treat as whitespace (bidirectional
    class WS, B or S, or general category Zs). *)
Definition is_space (c : codepoint) : bool :=
  (  ((0x09 <=? c) && (c <=? 0x0D))
  || ((0x1C <=? c) && (c <=? 0x20))
  || (c =? 0x85) || (c =? 0xA0) || (c =? 0x1680)
  || ((0x2000 <=? c) && (c <=? 0x200A))
  || (c =? 0x2028) || (c =? 0x2029) || (c =? 0x202F)
  || (c =? 0x205F) || (c =? 0x3000))%N.

Definition all_space (s : str) : bool := forallb is_space s.

(** The two scanning loops that [strip] and [split] are built from: advance
    an index while the character under it satisfies [p]. *)
Fixpoint skip_while (p : codepoint -> bool) (s : str) : str :=
  match s with
  | [] => []
  | c :: r => if p c then skip_while p r else s
  end.

Fixpoint take_while (p : codepoint -> bool) (s : str) : str :=
  match s with
  | [] => []
  | c :: r => if p c then c :: take_while p r else []
  end.

Definition not_space (c : codepoint) : bool := negb (is_space c).

(** [str.lstrip()], [str.rstrip()] and [str.strip()] without argument. *)
Definition lstrip (s : str) : str := skip_while is_space s.
Definition rstrip (s : str) : str := rev (skip_while is_space (rev s)).
Definition strip (s : str) : str := rstrip (lstrip s).

Lemma skip_while_length p s : length (skip_while p s) <= length s.
Proof.
  induction s as [|c r IH]; simpl; [lia|].
  destruct (p c); simpl; lia.
Qed.

(** [str.split()] without argument: step over whitespace; at the first
    character that is none, cut the token that runs up to the next whitespace
    character (or the end of the string) and go on behind it. *)
Equations? split (s : str) : list str by wf (length s) lt :=
  split [] := [];
  split (c :: r) with is_space c => {
    | true := split r;
    | false := (c :: take_while not_space r) :: split (skip_while not_space r) }.
Proof.
  pose proof (skip_while_length not_space r); lia.
Qed.

Example split_demo :
  split (lit "  a bc  d ") = [lit "a"; lit "bc"; lit "d"].
Proof. vm_compute. reflexivity. Qed.

(** ** Python values, faults and the interpreter state *)

(** The part of the exception hierarchy the [except Exception] clause tells
    apart. [KeyboardInterrupt], [SystemExit] and [GeneratorExit] derive from
    [BaseException] only, and so may a class of the user's; the others, and
    the user's classes that derive from [Exception], are caught. *)
Inductive exn_class : Type :=
| KeyboardInterrupt
| SystemExit
| GeneratorExit
| UserBaseException (name : str)
| AttributeError
| TypeError
| ValueError
| UserException (name : str).

(** [isinstance(e, Exception)] *)
Definition is_Exception (k : exn_class) : bool :=
  match k with
  | KeyboardInterrupt | SystemExit | GeneratorExit | UserBaseException _ => false
  | AttributeError | TypeError | ValueError | UserException _ => true
  end.

Record exn : Type := mk_exn { exn_kind : exn_class; exn_args : str }.

(** [str(e)] for an exception built from one message. *)
Definition str_of_exn (e : exn) : str := exn_args e.

Inductive outcome (A : Type) : Type :=
| Return (a : A)
| Raise (e : exn).
Arguments Return {A} a.
Arguments Raise {A} e.

(** [class WordCountResult(BaseModel)] *)
Record WordCountResult : Type := mk_WordCountResult {
  word_count : Z;
  success : bool;
  message : str
}.

Definition success_message : str := lit "Word count successful".

Section Interpreter.

(** Whatever Python code can read or write besides its arguments: globals,
    the heap, the I/O streams. *)
Context {World : Type}.

(** A computation runs in a state of the world, returns or raises, and
    leaves a state of the world. *)
Definition M (A : Type) : Type := World -> outcome A * World.

(** The values the tool can be handed at run time; the annotation
    [input: str] is not enforced by Python. Besides the built-in values there
    are the instances of other classes ([bytes], a subclass of [str], any
    class of the user's): such an object is what its attributes [strip],
    [split] and [__len__] do when called, each one absent or code that runs
    in the world. *)
Inductive pyobj : Type :=
| PyNone
| PyInt (z : Z)
| PyStr (s : str)
| PyList (l : list pyobj)
| PyInstance (class_name : str)
             (strip_method split_method len_method :
                option (World -> outcome pyobj * World)).

Definition type_name (o : pyobj) : str :=
  match o with
  | PyNone => lit "NoneType"
  | PyInt _ => lit "int"
  | PyStr _ => lit "str"
  | PyList _ => lit "list"
  | PyInstance class_name _ _ _ => class_name
  end.

Definition ret {A} (a : A) : M A := fun w => (Return a, w).
Definition raise {A} (e : exn) : M A := fun w => (Raise e, w).
Definition bind {A B} (m : M A) (k : A -> M B) : M B :=
  fun w => match m w with
           | (Return a, w') => k a w'
           | (Raise e, w') => (Raise e, w')
           end.

(** [try: body  except Exception as e: handler e] *)
Definition try_except_Exception {A} (body : M A) (handler : exn -> M A) : M A :=
  fun w => match body w with
           | (Return a, w') => (Return a, w')
           | (Raise e, w') =>
               if is_Exception (exn_kind e) then handler e w' else (Raise e, w')
           end.

Notation "x <- m ;; k" := (bind m (fun x => k))
  (at level 61, m at next level, right associativity).

Definition no_attribute (o : pyobj) (name : str) : exn :=
  mk_exn AttributeError
    (lit "'" ++ type_name o ++ lit "' object has no attribute '" ++ name ++ lit "'").

Definition no_len (o : pyobj) : exn :=
  mk_exn TypeError (lit "object of type '" ++ type_name o ++ lit "' has no len()").

Definition not_an_integer (o : pyobj) : exn :=
  mk_exn TypeError
    (lit "'" ++ type_name o ++ lit "' object cannot be interpreted as an integer").

Definition negative_len : exn :=
  mk_exn ValueError (lit "__len__() should return >= 0").

(** [o.strip()] *)
Definition py_strip (o : pyobj) : M pyobj :=
  match o with
  | PyStr s => ret (PyStr (strip s))
  | PyInstance _ (Some strip_method) _ _ => strip_method
  | _ => raise (no_attribute o (lit "strip"))
  end.

(** [o.split()] *)
Definition py_split (o : pyobj) : M pyobj :=
  match o with
  | PyStr s => ret (PyList (map PyStr (split s)))
  | PyInstance _ _ (Some split_method) _ => split_method
  | _ => raise (no_attribute o (lit "split"))
  end.

(** [len(o)]: what [__len__] returns has to be a non-negative integer. *)
Definition py_len (o : pyobj) : M Z :=
  match o with
  | PyStr s => ret (Z.of_nat (length s))
  | PyList l => ret (Z.of_nat (length l))
  | PyInstance _ _ _ (Some len_method) =>
      n <- len_method ;;
      match n with
      | PyInt z => if (z <? 0)%Z then raise negative_len else ret z
      | _ => raise (not_an_integer n)
      end
  | _ => raise (no_len o)
  end.

(** The [try] block of [count_words]. *)
Definition count_words_try (input : pyobj) : M WordCountResult :=
  stripped <- py_strip input ;;
  tokens <- py_split stripped ;;
  num_words <- py_len tokens ;;
  ret {| word_count := num_words;
         success := true;
         message := lit "Word count successful" |}.

(** The [except Exception as e] block of [count_words]. *)
Definition count_words_except (e : exn) : M WordCountResult :=
  ret {| word_count := 0%Z;
         success := false;
         message := lit "Error: " ++ str_of_exn e |}.

(** [def count_words(input: str) -> WordCountResult] *)
Definition count_words (input : pyobj) : M WordCountResult :=
  try_except_Exception (count_words_try input) count_words_except.

(** Two calls in a row, the second in the state the first one left. *)
Definition call_twice (input : pyobj) : M (WordCountResult * WordCountResult) :=
  first <- count_words input ;;
  second <- count_words input ;;
  ret (first, second).

End Interpreter.

Arguments pyobj : clear implicits.

(** The fixed input of [run_sample]: two adjacent literals, joined by the
    parser. *)
Definition sample_input : str :=
  lit "Generative AI has the potential to transform how organizations automate work, "
  ++ lit "extract insights, and interact with data. It can also boost productivity.".

Example sample_demo :
  fst (count_words (PyStr sample_input) tt) =
    Return {| word_count := 22%Z; success := true; message := success_message |}.
Proof. vm_compute. reflexivity. Qed.

Example none_demo :
  fst (count_words PyNone tt) =
    Return {| word_count := 0%Z; success := false;
              message := lit "Error: 'NoneType' object has no attribute 'strip'" |}.
Proof. vm_compute. reflexivity. Qed.

(** ** The scanning loops *)

Lemma take_skip_while p s : take_while p s ++ skip_while p s = s.
Proof.
  induction s as [|c r IH]; simpl; [reflexivity|].
  destruct (p c); simpl; [now rewrite IH | reflexivity].
Qed.

Lemma take_while_all p s : forallb p (take_while p s) = true.
Proof.
  induction s as [|c r IH]; simpl; [reflexivity|].
  destruct (p c) eqn:E; simpl; [now rewrite E | reflexivity].
Qed.

Lemma skip_while_all p w s :
  forallb p w = true -> skip_while p (w ++ s) = skip_while p s.
Proof.
  induction w as [|c r IH]; simpl; [reflexivity|].
  intros H. apply andb_prop in H as [Hc Hr]. now rewrite Hc, IH.
Qed.

Lemma skip_while_stop p s c r :
  p c = false -> skip_while p (s ++ c :: r) = skip_while p s ++ c :: r.
Proof.
  intros Hc. induction s as [|d s IH]; simpl; [now rewrite Hc|].
  destruct (p d); [exact IH | reflexivity].
Qed.

Lemma take_while_stop p s c r :
  p c = false -> take_while p (s ++ c :: r) = take_while p s.
Proof.
  intros Hc. induction s as [|d s IH]; simpl; [now rewrite Hc|].
  destruct (p d); [now rewrite IH | reflexivity].
Qed.

Lemma not_space_false c : is_space c = true -> not_space c = false.
Proof. unfold not_space. now intros ->. Qed.

(** ** [split] and whitespace *)

Lemma split_all_space w : all_space w = true -> split w = [].
Proof.
  induction w as [|c r IH]; simp split; [reflexivity|].
  simpl. intros H. apply andb_prop in H as [Hc Hr].
  rewrite Hc. simpl. auto.
Qed.

Lemma split_lead w s : all_space w = true -> split (w ++ s) = split s.
Proof.
  induction w as [|c r IH]; [reflexivity|].
  simpl. intros H. apply andb_prop in H as [Hc Hr].
  simp split. rewrite Hc. simpl. auto.
Qed.

(** One whitespace character between two strings keeps their tokens apart. *)
Lemma split_sep s1 c s2 :
  is_space c = true -> split (s1 ++ c :: s2) = split s1 ++ split s2.
Proof.
  intros Hc. funelim (split s1).
  - simpl. simp split. rewrite Hc. reflexivity.
  - simpl. simp split. rewrite Heq. simpl. auto.
  - simpl. simp split. rewrite Heq. simpl.
    rewrite take_while_stop, skip_while_stop by now apply not_space_false.
    f_equal. auto.
Qed.

Lemma split_trail s w : all_space w = true -> split (s ++ w) = split s.
Proof.
  destruct w as [|c r]; [now rewrite app_nil_r|].
  simpl. intros H. apply andb_prop in H as [Hc Hr].
  rewrite split_sep, (split_all_space r), app_nil_r by assumption.
  reflexivity.
Qed.

(** ** [strip] *)

Lemma lstrip_spec s :
  exists w, all_space w = true /\ s = w ++ lstrip s.
Proof.
  exists (take_while is_space s). split.
  - apply take_while_all.
  - symmetry. apply take_skip_while.
Qed.

Lemma rstrip_spec s :
  exists w, all_space w = true /\ s = rstrip s ++ w.
Proof.
  destruct (lstrip_spec (rev s)) as (w & Hw & E).
  exists (rev w). split.
  - unfold all_space in *. rewrite forallb_forall in *.
    intros x Hx. apply Hw. now apply in_rev.
  - unfold rstrip. unfold lstrip in E.
    rewrite <- rev_app_distr, <- E. symmetry. apply rev_involutive.
Qed.

(** [strip] removes a whitespace prefix and a whitespace suffix, and nothing
    else. *)
Lemma strip_spec s :
  exists w1 w2,
    all_space w1 = true /\ all_space w2 = true /\ s = w1 ++ strip s ++ w2.
Proof.
  destruct (lstrip_spec s) as (w1 & H1 & E1).
  destruct (rstrip_spec (lstrip s)) as (w2 & H2 & E2).
  exists w1, w2. repeat split; try assumption.
  unfold strip. now rewrite <- E2.
Qed.

Lemma split_strip s : split (strip s) = split s.
Proof.
  destruct (strip_spec s) as (w1 & w2 & H1 & H2 & E).
  rewrite E at 2. now rewrite split_lead, split_trail.
Qed.

(** ** The specification's vocabulary *)

(** Trimming, in the specification's words: drop the leading whitespace,
    then drop the trailing whitespace, that is every character behind which
    nothing but whitespace is left. *)
Fixpoint drop_trailing (s : str) : str :=
  match s with
  | [] => []
  | c :: r =>
      match drop_trailing r with
      | [] => if is_space c then [] else [c]
      | t => c :: t
      end
  end.

Definition drop_leading (s : str) : str := skip_while is_space s.

Definition trim (s : str) : str := drop_trailing (drop_leading s).

Definition space_at (s : str) (i : nat) : bool :=
  match nth_error s i with
  | Some c => is_space c
  | None => false
  end.

(** [s[i:j]] *)
Definition slice (i j : nat) (s : str) : str := firstn (j - i) (skipn i s).

(** A maximal non-whitespace run of [s] is a non-empty slice [s[i:j]] without
    whitespace that can be extended on neither side: it starts at the
    beginning of [s] or behind a whitespace character, and it ends at the end
    of [s] or in front of a whitespace character. *)
Definition is_maximal_run (s : str) (i j : nat) : bool :=
  (i <? j) && (j <=? length s)
  && forallb not_space (slice i j s)
  && ((i =? 0) || space_at s (i - 1))
  && ((j =? length s) || space_at s j).

Definition positions (s : str) : list nat := seq 0 (S (length s)).

Definition maximal_runs (s : str) : list (nat * nat) :=
  filter (fun ij => is_maximal_run s (fst ij) (snd ij))
         (list_prod (positions s) (positions s)).

Definition count_maximal_runs (s : str) : nat := length (maximal_runs s).

(** Splitting on runs of whitespace: every maximal run of whitespace is one
    separator, the pieces are what lies between separators (as a regular
    expression split on [\s+] does; a separator at either end leaves an empty
    piece there). [in_sep] tells that the character before [s] belonged to a
    separator. *)
Fixpoint split_on_runs (in_sep : bool) (s : str) : list str :=
  match s with
  | [] => [[]]
  | c :: r =>
      if is_space c then
        if in_sep then split_on_runs true r else [] :: split_on_runs true r
      else
        match split_on_runs false r with
        | piece :: pieces => (c :: piece) :: pieces
        | [] => [[c]]
        end
  end.

Definition non_empty (t : str) : bool :=
  match t with [] => false | _ :: _ => true end.

Definition count_non_empty_tokens (s : str) : nat :=
  length (filter non_empty (split_on_runs false s)).

Example maximal_runs_demo :
  maximal_runs (lit "ab  c d") = [(0, 2); (4, 5); (6, 7)].
Proof. vm_compute. reflexivity. Qed.

Example split_on_runs_demo :
  split_on_runs false (lit " ab  c ") = [lit ""; lit "ab"; lit "c"; lit ""].
Proof. vm_compute. reflexivity. Qed.

(** ** Counting tokens one character at a time *)

(** A token starts at every character that is no whitespace and follows a
    whitespace character or the beginning of the string. *)
Fixpoint run_starts (prev_space : bool) (s : str) : nat :=
  match s with
  | [] => 0
  | c :: r =>
      (if prev_space && not_space c then 1 else 0) + run_starts (is_space c) r
  end.

Lemma run_starts_skip r :
  run_starts false r = run_starts true (skip_while not_space r).
Proof.
  induction r as [|c r IH]; [reflexivity|].
  simpl. unfold not_space. destruct (is_space c) eqn:E; simpl; [|exact IH].
  unfold not_space. now rewrite E.
Qed.

Lemma split_length s : length (split s) = run_starts true s.
Proof.
  funelim (split s); simp split; simpl.
  - reflexivity.
  - rewrite Heq. simpl. unfold not_space. rewrite Heq. simpl. auto.
  - rewrite Heq. simpl. unfold not_space at 2. rewrite Heq. simpl.
    rewrite run_starts_skip. f_equal. auto.
Qed.

(** ** Maximal runs, counted by where they start *)

Ltac cmp :=
  repeat match goal with
    | |- context [Nat.eqb ?a ?b] => destruct (Nat.eqb_spec a b)
    | |- context [Nat.leb ?a ?b] => destruct (Nat.leb_spec a b)
    | |- context [Nat.ltb ?a ?b] => destruct (Nat.ltb_spec a b)
    end.

Definition starts_at (s : str) (i : nat) : bool :=
  match nth_error s i with
  | Some c => not_space c
  | None => false
  end.

(** [prev_space] stands for what precedes the string. *)
Definition is_start (prev_space : bool) (s : str) (i : nat) : bool :=
  starts_at s i && (if i =? 0 then prev_space else space_at s (i - 1)).

Definition run_end (s : str) (i : nat) : nat :=
  i + length (take_while not_space (skipn i s)).

Lemma run_end_char u k :
  forallb not_space (firstn k u) && (k <=? length u)
  && ((k =? length u) || space_at u k)
  = (k =? length (take_while not_space u)).
Proof.
  revert k. induction u as [|c r IH]; intros [|k]; simpl; try reflexivity.
  - unfold space_at, not_space. simpl.
    destruct (is_space c); reflexivity.
  - unfold space_at in *. simpl. specialize (IH k).
    destruct (not_space c); simpl; [exact IH | reflexivity].
Qed.

Lemma starts_at_take s i :
  starts_at s i = negb (length (take_while not_space (skipn i s)) =? 0).
Proof.
  unfold starts_at.
  replace (nth_error s i) with (nth_error (skipn i s) 0)
    by (rewrite nth_error_skipn; now rewrite Nat.add_0_r).
  destruct (skipn i s) as [|c r]; simpl; [reflexivity|].
  destruct (not_space c); reflexivity.
Qed.

Lemma is_maximal_run_end s i j :
  i <= length s ->
  is_maximal_run s i j = is_start true s i && (j =? run_end s i).
Proof.
  intros Hi. unfold is_maximal_run, is_start, run_end.
  rewrite starts_at_take.
  destruct (Nat.ltb_spec i j) as [Hij|Hij]; simpl.
  - pose proof (run_end_char (skipn i s) (j - i)) as H.
    rewrite length_skipn in H.
    replace (space_at (skipn i s) (j - i)) with (space_at s j) in H
      by (unfold space_at; rewrite nth_error_skipn;
          now replace (i + (j - i)) with j by lia).
    replace (j - i <=? length s - i) with (j <=? length s) in H
      by (cmp; lia || reflexivity).
    replace (j - i =? length s - i) with (j =? length s) in H
      by (cmp; lia || reflexivity).
    set (L := (i =? 0) || space_at s (i - 1)).
    replace (if i =? 0 then true else space_at s (i - 1)) with L
      by (unfold L; destruct (i =? 0); reflexivity).
    set (n := length (take_while not_space (skipn i s))) in *.
    transitivity ((j - i =? n) && L).
    + rewrite <- H. unfold slice.
      destruct (j <=? length s), (forallb not_space (firstn (j - i) (skipn i s))),
        L, ((j =? length s) || space_at s j); reflexivity.
    + cmp; simpl; try lia; try reflexivity;
        destruct L; reflexivity.
  - cmp; simpl; try lia; try reflexivity;
      now rewrite ?andb_false_r.
Qed.

Lemma filter_eqb_seq x a m :
  length (filter (fun j => j =? x) (seq a m))
  = if (a <=? x) && (x <? a + m) then 1 else 0.
Proof.
  revert a. induction m as [|m IH]; intros a; simpl.
  - cmp; simpl; lia || reflexivity.
  - destruct (Nat.eqb_spec a x); simpl; rewrite (IH (S a));
      cmp; simpl; lia || reflexivity.
Qed.

Lemma run_end_le s i : i <= length s -> run_end s i <= length s.
Proof.
  intros Hi. unfold run_end.
  pose proof (take_skip_while not_space (skipn i s)) as E.
  apply (f_equal (@length _)) in E.
  rewrite length_app, length_skipn in E. lia.
Qed.

(** Every starting position carries exactly one maximal run. *)
Lemma runs_from_count s i :
  i <= length s ->
  length (filter (is_maximal_run s i) (positions s))
  = if is_start true s i then 1 else 0.
Proof.
  intros Hi. destruct (is_start true s i) eqn:E.
  - rewrite (filter_ext _ (fun j => j =? run_end s i))
      by (intros j; now rewrite is_maximal_run_end, E).
    unfold positions. rewrite filter_eqb_seq.
    pose proof (run_end_le s i Hi). cmp; simpl; lia || reflexivity.
  - rewrite (filter_ext _ (fun _ => false))
      by (intros j; now rewrite is_maximal_run_end, E).
    induction (positions s); simpl; auto.
Qed.

Lemma filter_prod_length (f : nat -> nat -> bool) l1 l2 :
  length (filter (fun ij => f (fst ij) (snd ij)) (list_prod l1 l2))
  = list_sum (map (fun i => length (filter (f i) l2)) l1).
Proof.
  induction l1 as [|a l1 IH]; simpl; [reflexivity|].
  rewrite filter_app, length_app, IH. f_equal. clear IH.
  induction l2 as [|b l2 IH2]; simpl; [reflexivity|].
  destruct (f a b); simpl; now rewrite IH2.
Qed.

Lemma is_start_cons b c r i :
  is_start b (c :: r) (S i) = is_start (is_space c) r i.
Proof.
  unfold is_start, starts_at. simpl. rewrite Nat.sub_0_r.
  destruct i as [|k]; simpl; [reflexivity|].
  now rewrite Nat.sub_0_r.
Qed.

Lemma starts_count b s :
  list_sum (map (fun i => if is_start b s i then 1 else 0) (positions s))
  = run_starts b s.
Proof.
  unfold positions. revert b. induction s as [|c r IH]; intros b.
  - reflexivity.
  - cbn [length run_starts]. rewrite <- (IH (is_space c)).
    change (seq 0 (S (S (length r)))) with (0 :: seq 1 (S (length r))).
    rewrite <- seq_shift, map_cons, map_map. cbn [list_sum fold_right].
    fold (list_sum (map (fun i => if is_start b (c :: r) (S i) then 1 else 0)
                        (seq 0 (S (length r))))).
    f_equal.
    + unfold is_start, starts_at. simpl. now rewrite andb_comm.
    + f_equal. apply map_ext. intros i. now rewrite is_start_cons.
Qed.

(** The maximal runs of a string are as many as the tokens the
    character-by-character scan sees. *)
Lemma count_maximal_runs_starts s : count_maximal_runs s = run_starts true s.
Proof.
  unfold count_maximal_runs, maximal_runs.
  rewrite filter_prod_length, <- starts_count.
  f_equal. apply map_ext_in. intros i Hi.
  apply runs_from_count. unfold positions in Hi. apply in_seq in Hi. lia.
Qed.

(** ** Splitting on runs of whitespace, counted the same way *)

Lemma split_on_runs_scan s :
  (exists p ps,
      split_on_runs false s = p :: ps
      /\ length (filter non_empty ps) = run_starts false s
      /\ non_empty p = match s with c :: _ => not_space c | [] => false end)
  /\ length (filter non_empty (split_on_runs true s)) = run_starts true s.
Proof.
  induction s as [|c r [(p & ps & E & Hps & Hp) IH2]].
  - split; [exists [], []; auto | reflexivity].
  - simpl. unfold not_space. destruct (is_space c) eqn:Hc; simpl.
    + split; [|exact IH2].
      exists [], (split_on_runs true r). auto.
    + rewrite E. split.
      * exists (c :: p), ps. auto.
      * simpl. now rewrite Hps.
Qed.

Lemma count_non_empty_tokens_starts s :
  count_non_empty_tokens s = run_starts true s.
Proof.
  unfold count_non_empty_tokens.
  destruct (split_on_runs_scan s) as [(p & ps & E & Hps & Hp) _].
  rewrite E. simpl. rewrite Hp.
  destruct s as [|c r]; simpl in *; [exact Hps|].
  destruct (not_space c); simpl; now rewrite Hps.
Qed.

(** ** [strip] is trimming *)

Lemma skip_while_snoc p l c :
  skip_while p (l ++ [c])
  = if forallb p l then (if p c then [] else [c]) else skip_while p l ++ [c].
Proof.
  induction l as [|d l IH]; simpl; [reflexivity|].
  destruct (p d); simpl; [exact IH | reflexivity].
Qed.

Lemma drop_trailing_nil s : drop_trailing s = [] <-> all_space s = true.
Proof.
  induction s as [|c r IH]; simpl; [tauto|].
  destruct (drop_trailing r) as [|d t] eqn:E.
  - destruct (is_space c); simpl; [tauto|]. split; discriminate.
  - split; [discriminate|]. intros H. apply andb_prop in H as [_ H].
    apply IH in H. discriminate.
Qed.

Lemma forallb_rev (p : codepoint -> bool) l : forallb p (rev l) = forallb p l.
Proof.
  induction l as [|c l IH]; simpl; [reflexivity|].
  rewrite forallb_app, IH. simpl. rewrite andb_true_r. apply andb_comm.
Qed.

Lemma rstrip_drop_trailing s : rstrip s = drop_trailing s.
Proof.
  unfold rstrip. induction s as [|c r IH]; [reflexivity|].
  simpl. rewrite skip_while_snoc, forallb_rev.
  destruct (forallb is_space r) eqn:E.
  - apply drop_trailing_nil in E. rewrite E.
    destruct (is_space c); reflexivity.
  - rewrite rev_app_distr, IH. simpl.
    destruct (drop_trailing r) eqn:D; [|reflexivity].
    apply drop_trailing_nil in D. unfold all_space in D. congruence.
Qed.

Lemma strip_trim s : strip s = trim s.
Proof. unfold strip, trim. apply rstrip_drop_trailing. Qed.

(** A trimmed string neither starts nor ends with whitespace. *)
Lemma trim_ends s :
  space_at (trim s) 0 = false /\ space_at (trim s) (length (trim s) - 1) = false.
Proof.
  rewrite <- strip_trim. split.
  - unfold strip, lstrip. rewrite rstrip_drop_trailing.
    induction s as [|c r IH]; [reflexivity|]. simpl.
    destruct (is_space c) eqn:E; [exact IH|]. simpl.
    unfold space_at. destruct (drop_trailing r); simpl; now rewrite E.
  - unfold strip, rstrip. generalize (rev (lstrip s)). intros l.
    induction l as [|c r IH]; [reflexivity|]. simpl.
    destruct (is_space c) eqn:E; [exact IH|]. simpl.
    rewrite length_app. simpl.
    replace (length (rev r) + 1 - 1) with (length (rev r)) by lia.
    unfold space_at. rewrite nth_error_app2 by lia.
    rewrite Nat.sub_diag. simpl. exact E.
Qed.

(** ** What [count_words] computes *)

Section Behaviour.

Context {World : Type}.
Implicit Types (st : World) (s : str) (input : pyobj World).

(** On a string the [try] block runs to its [return]. *)
Lemma count_words_try_str st s :
  count_words_try (PyStr s) st
  = (Return {| word_count := Z.of_nat (length (split (strip s)));
               success := true;
               message := success_message |}, st).
Proof.
  unfold count_words_try, bind, py_strip, py_split, py_len, ret.
  now rewrite length_map.
Qed.

Lemma count_words_str st s :
  count_words (PyStr s) st
  = (Return {| word_count := Z.of_nat (length (split (strip s)));
               success := true;
               message := success_message |}, st).
Proof.
  unfold count_words, try_except_Exception.
  now rewrite count_words_try_str.
Qed.

(** The values that have no attribute [strip]. *)
Definition lacks_strip input : bool :=
  match input with
  | PyStr _ | PyInstance _ (Some _) _ _ => false
  | _ => true
  end.

(** The values of the built-in types, whose methods run no code of the
    user's. *)
Definition builtin_value input : bool :=
  match input with
  | PyInstance _ _ _ _ => false
  | _ => true
  end.

(** On a value without [strip] the lookup fails in the [try] block. *)
Lemma count_words_try_no_strip st input :
  lacks_strip input = true ->
  count_words_try input st = (Raise (no_attribute input (lit "strip")), st).
Proof.
  destruct input as [|z|s|l|c [m|] sp ln]; try discriminate; reflexivity.
Qed.

Lemma count_words_no_strip st input :
  lacks_strip input = true ->
  count_words input st
  = (Return {| word_count := 0%Z;
               success := false;
               message := lit "Error: "
                          ++ str_of_exn (no_attribute input (lit "strip")) |}, st).
Proof.
  intros H. unfold count_words, try_except_Exception.
  now rewrite count_words_try_no_strip.
Qed.

(** [len] never reports a negative number. *)
Lemma py_len_nonneg (o : pyobj World) st n st' :
  py_len o st = (Return n, st') -> (0 <= n)%Z.
Proof.
  destruct o as [|z|s|l|c sm sp [m|]]; unfold py_len, ret, raise, bind;
    try discriminate; try (intros [= <- _]; lia).
  destruct (m st) as [[v|e] st1]; [|discriminate].
  destruct v as [|z|s|l|c' a b d]; try discriminate.
  destruct (Z.ltb_spec z 0); [discriminate|]. intros [= <- _]. lia.
Qed.

(** What the [try] block returns, when it returns. *)
Lemma count_words_try_returns st input r st' :
  count_words_try input st = (Return r, st') ->
  success r = true /\ message r = success_message /\ (0 <= word_count r)%Z.
Proof.
  unfold count_words_try, bind.
  destruct (py_strip input st) as [[o1|e1] st1]; [|discriminate].
  destruct (py_split o1 st1) as [[o2|e2] st2]; [|discriminate].
  destruct (py_len o2 st2) as [[n|e3] st3] eqn:L; [|discriminate].
  unfold ret. intros [= <- _]. simpl. repeat split.
  eapply py_len_nonneg, L.
Qed.

(** [count_words] is its [try] block, but for the faults that are instances
    of [Exception]. *)
Lemma count_words_outcome st input :
  count_words input st
  = match count_words_try input st with
    | (Return r, st') => (Return r, st')
    | (Raise e, st') =>
        if is_Exception (exn_kind e)
        then (Return {| word_count := 0%Z; success := false;
                        message := lit "Error: " ++ str_of_exn e |}, st')
        else (Raise e, st')
    end.
Proof.
  unfold count_words, try_except_Exception, count_words_except, ret.
  destruct (count_words_try input st) as [[r|e] st']; reflexivity.
Qed.

End Behaviour.

Lemma word_count_split s : length (split (strip s)) = length (split s).
Proof. now rewrite split_strip. Qed.

Lemma error_is_not_success x : lit "Error: " ++ x <> success_message.
Proof. discriminate. Qed.

(** ** The claims *)

(** C1: for every input string [s], the [word_count] of the result that
    [count_words] returns is the number of maximal non-whitespace runs of the
    trimmed [s]; it is also the number of non-empty tokens left by splitting
    the trimmed [s] on runs of whitespace. *)
Theorem count_words_counts_runs (World : Type) (st : World) (s : str) :
  exists r,
    fst (count_words (PyStr s) st) = Return r
    /\ word_count r = Z.of_nat (count_maximal_runs (trim s))
    /\ word_count r = Z.of_nat (count_non_empty_tokens (trim s)).
Proof.
  rewrite count_words_str. eexists. split; [reflexivity|]. simpl.
  rewrite count_maximal_runs_starts, count_non_empty_tokens_starts.
  rewrite <- strip_trim, <- split_length. auto.
Qed.

(** C2, as the specification has it, fails: on the sample input of
    [run_sample] the tool does not report 24 words. *)
Lemma sample_word_count_is_not_24 :
  ~ (exists r,
        fst (count_words (PyStr sample_input) tt) = Return r
        /\ word_count r = 24%Z).
Proof.
  intros (r & E & H). rewrite count_words_str in E. simpl in E.
  injection E as <-. vm_compute in H. discriminate.
Qed.

(** C2, amended: applied to the fixed sample input of [run_sample],
    [count_words] returns the success result with [word_count = 22]; the
    sample text has 22 whitespace-delimited words. *)
Theorem sample_word_count_is_22 (World : Type) (st : World) :
  fst (count_words (PyStr sample_input) st)
  = Return {| word_count := 22%Z; success := true;
              message := lit "Word count successful" |}.
Proof.
  rewrite count_words_str. vm_compute. reflexivity.
Qed.




Example ValueError_is_reported :
  count_words
    (PyInstance (lit "Picky")
       (Some (raise (mk_exn ValueError (lit "not today")))) None None) tt
  = (Return {| word_count := 0%Z; success := false;
               message := lit "Error: not today" |}, tt).
Proof. vm_compute. reflexivity. Qed.

(** C4: every result [count_words] returns keeps the invariant of the data
    model: [success] is true exactly when the message is the fixed success
    string and the count is a well-defined (non-negative) number, which is 0
    for an empty or whitespace-only string; a failed result carries another
    message than the success string. On a value of a built-in type a result
    is returned. *)
Theorem result_invariant (World : Type) (st : World) (input : pyobj World) :
  (builtin_value input = true ->
   exists r,
     fst (count_words input st) = Return r
     /\ (success r = true
         <-> message r = success_message /\ (0 <= word_count r)%Z)
     /\ (success r = false -> message r <> success_message)
     /\ (forall s, input = PyStr s -> all_space s = true -> word_count r = 0%Z))
  /\ (forall r,
        fst (count_words input st) = Return r ->
        (success r = true
         <-> message r = success_message /\ (0 <= word_count r)%Z)
        /\ (success r = false -> message r <> success_message)
        /\ (forall s, input = PyStr s -> all_space s = true ->
            word_count r = 0%Z)).
Proof.
  assert (G : forall r,
             fst (count_words input st) = Return r ->
             (success r = true
              <-> message r = success_message /\ (0 <= word_count r)%Z)
             /\ (success r = false -> message r <> success_message)
             /\ (forall s, input = PyStr s -> all_space s = true ->
                 word_count r = 0%Z)).
  { intros r. rewrite count_words_outcome.
    destruct (count_words_try input st) as [[r'|e] st'] eqn:T.
    - simpl. intros [= <-].
      destruct (count_words_try_returns _ _ _ _ T) as (Hs & Hm & Hn).
      repeat split; try assumption; try congruence.
      intros s -> Hb. rewrite count_words_try_str in T.
      injection T as <- _. simpl.
      now rewrite word_count_split, split_all_space.
    - destruct (is_Exception (exn_kind e)); simpl; [|discriminate].
      intros [= <-]. cbn [success message word_count].
      split; [split|split].
      + discriminate.
      + intros [H _]. now apply error_is_not_success in H.
      + intros _. apply error_is_not_success.
      + intros s -> _. rewrite count_words_try_str in T. discriminate. }
  split; [|exact G]. intros B.
  assert (E : exists r, fst (count_words input st) = Return r).
  { destruct input as [|z|s|l|c sm sp ln]; try discriminate;
      try (rewrite count_words_no_strip by reflexivity; eexists; reflexivity).
    rewrite count_words_str. eexists. reflexivity. }
  destruct E as [r E]. exists r. split; [exact E|]. now apply G.
Qed.

Lemma result_invariant_witness :
  exists r,
    fst (count_words (PyStr (lit "   ")) tt) = Return r
    /\ success r = true /\ message r = success_message /\ word_count r = 0%Z.
Proof.
  destruct (result_invariant unit tt (PyStr (lit "   "))) as [H _].
  destruct (H eq_refl) as (r & E & Hiff & _ & Hzero).
  exists r. split; [exact E|].
  assert (Hs : success r = true).
  { rewrite count_words_str in E. simpl in E. now injection E as <-. }
  split; [exact Hs|]. split; [apply Hiff, Hs|].
  apply (Hzero (lit "   ")); reflexivity.
Defined.

(** C5: for every input string that is empty or made of whitespace only, in
    particular for the empty string and for three spaces, [count_words]
    returns [word_count = 0] and [success = true]. *)
Theorem blank_input_counts_zero (World : Type) (st : World) (s : str) :
  all_space s = true ->
  exists r,
    fst (count_words (PyStr s) st) = Return r
    /\ word_count r = 0%Z /\ success r = true.
Proof.
  intros H. rewrite count_words_str. eexists. split; [reflexivity|]. simpl.
  now rewrite word_count_split, split_all_space.
Qed.

Lemma blank_input_counts_zero_witness :
  (exists r,
      fst (count_words (PyStr (lit "")) tt) = Return r
      /\ word_count r = 0%Z /\ success r = true)
  /\ (exists r,
         fst (count_words (PyStr (lit "   ")) tt) = Return r
         /\ word_count r = 0%Z /\ success r = true).
Proof.
  split.
  - apply (blank_input_counts_zero unit tt (lit "")). reflexivity.
  - apply (blank_input_counts_zero unit tt (lit "   ")). reflexivity.
Defined.

(** C6: on "hello world" [count_words] returns exactly [word_count = 2],
    [success = true] and the message "Word count successful"; on
    "one  two   three", with its irregular spacing, it returns
    [word_count = 3]. *)
Theorem hello_world_and_irregular_spacing (World : Type) (st : World) :
  fst (count_words (PyStr (lit "hello world")) st)
  = Return {| word_count := 2%Z; success := true;
              message := lit "Word count successful" |}
  /\ exists r,
       fst (count_words (PyStr (lit "one  two   three")) st) = Return r
       /\ word_count r = 3%Z.
Proof.
  rewrite !count_words_str. split; [|eexists; split]; vm_compute; reflexivity.
Qed.

(** C7: the error branch is out of reach on a string. The [try] block of
    [count_words] returns the success result without raising, so the function
    returns that result, with [success = true] and the success message, and
    would return the same whatever stood in the [except] block. *)
Theorem error_branch_unreachable (World : Type) (st : World) (s : str) :
  exists r,
    count_words_try (PyStr s) st = (Return r, st)
    /\ success r = true /\ message r = lit "Word count successful"
    /\ count_words (PyStr s) st = (Return r, st)
    /\ forall handler : exn -> M WordCountResult,
         try_except_Exception (count_words_try (PyStr s)) handler st
         = (Return r, st).
Proof.
  eexists. split; [apply count_words_try_str|].
  repeat split; [apply count_words_str|].
  intros handler. unfold try_except_Exception.
  now rewrite count_words_try_str.
Qed.

(** The world is not carried along idly. An object can keep state in it:
    this one counts the calls of its [strip] and answers with as many words
    as it has been called before. On it two calls in a row differ, and each
    leaves the world changed. *)
Definition call_counter : pyobj nat :=
  PyInstance (lit "CallCounter")
    (Some (fun calls => (Return (PyStr (concat (repeat (lit "again ") calls))),
                         S calls)))
    None None.

Example call_counter_has_hidden_state :
  call_twice call_counter 0
  = (Return ({| word_count := 0%Z; success := true;
                message := success_message |},
             {| word_count := 1%Z; success := true;
                message := success_message |}), 2).
Proof. vm_compute. reflexivity. Qed.

(** C8: [count_words] is deterministic and pure. Started in any two states
    of the world on the same string, it returns the same result (the same
    [word_count], [success] and [message]) and leaves each state as it found
    it; two calls in a row return that result twice. *)
Theorem count_words_deterministic (World : Type) (st1 st2 : World) (s : str) :
  exists r,
    count_words (PyStr s) st1 = (Return r, st1)
    /\ count_words (PyStr s) st2 = (Return r, st2)
    /\ call_twice (PyStr s) st1 = (Return (r, r), st1).
Proof.
  eexists. split; [apply count_words_str|]. split; [apply count_words_str|].
  unfold call_twice, bind. now rewrite !count_words_str.
Qed.

(** C9: one space between two strings adds their counts up: the
    [word_count] for [s1 ++ " " ++ s2] is the sum of the [word_count]s for
    [s1] and for [s2]. *)
Theorem count_words_concat (World : Type) (st : World) (s1 s2 : str) :
  exists r r1 r2,
    fst (count_words (PyStr (s1 ++ lit " " ++ s2)) st) = Return r
    /\ fst (count_words (PyStr s1) st) = Return r1
    /\ fst (count_words (PyStr s2) st) = Return r2
    /\ word_count r = (word_count r1 + word_count r2)%Z.
Proof.
  rewrite !count_words_str. do 3 eexists.
  repeat split. simpl.
  rewrite !word_count_split, split_sep, length_app by reflexivity.
  apply Nat2Z.inj_add.
Qed.

(** C10: whitespace put in front of and behind a string changes nothing:
    for whitespace-only [w1] and [w2], [count_words] returns for
    [w1 ++ s ++ w2] the very result it returns for [s]. *)
Theorem count_words_padding (World : Type) (st : World) (s w1 w2 : str) :
  all_space w1 = true ->
  all_space w2 = true ->
  count_words (PyStr (w1 ++ s ++ w2)) st = count_words (PyStr s) st.
Proof.
  intros H1 H2. rewrite !count_words_str, !word_count_split.
  now rewrite split_lead, split_trail.
Qed.

Lemma count_words_padding_witness :
  count_words (PyStr ([9; 32] ++ lit "to be  or" ++ [10; 0x3000]))%N tt
  = count_words (PyStr (lit "to be  or")) tt.
Proof.
  apply (count_words_padding unit tt (lit "to be  or") [9; 32]%N [10; 0x3000]%N);
    reflexivity.
Defined.

(** ** Further properties of the tool *)

(** Whether a string begins, and whether it ends, inside a word. *)
Definition first_is_word (s : str) : bool :=
  match s with
  | c :: _ => not_space c
  | [] => false
  end.

Definition last_is_word (s : str) : bool := first_is_word (rev s).

(** What the scan remembers when it has read [s]: whether the last character
    was whitespace ([prev_space] when there was none). *)
Fixpoint end_flag (prev_space : bool) (s : str) : bool :=
  match s with
  | [] => prev_space
  | c :: r => end_flag (is_space c) r
  end.

Lemma end_flag_rev b s :
  end_flag b s = match rev s with [] => b | c :: _ => is_space c end.
Proof.
  revert b. induction s as [|c r IH]; intros b; [reflexivity|].
  simpl. rewrite IH. destruct (rev r); reflexivity.
Qed.

Lemma end_flag_last s : end_flag true s = negb (last_is_word s).
Proof.
  rewrite end_flag_rev. unfold last_is_word, first_is_word, not_space.
  destruct (rev s); [reflexivity|]. now rewrite negb_involutive.
Qed.

Lemma run_starts_app b s1 s2 :
  run_starts b (s1 ++ s2) = run_starts b s1 + run_starts (end_flag b s1) s2.
Proof.
  revert b. induction s1 as [|c r IH]; intros b; [reflexivity|].
  simpl. rewrite IH. lia.
Qed.

Lemma run_starts_flag s :
  run_starts true s = (if first_is_word s then 1 else 0) + run_starts false s.
Proof. destruct s as [|c r]; reflexivity. Qed.

Lemma run_starts_zero s : run_starts true s = 0 <-> all_space s = true.
Proof.
  induction s as [|c r IH]; simpl; [tauto|].
  unfold not_space. destruct (is_space c); simpl; [exact IH|].
  split; discriminate.
Qed.

Lemma run_starts_half b s :
  2 * run_starts b s <= length s + (if b then 1 else 0).
Proof.
  revert b. induction s as [|c r IH]; intros b; simpl; [lia|].
  unfold not_space. specialize (IH (is_space c)).
  destruct b, (is_space c); simpl in *; lia.
Qed.

Lemma run_starts_filter b s : run_starts b s <= length (filter not_space s).
Proof.
  revert b. induction s as [|c r IH]; intros b; simpl; [lia|].
  unfold not_space at 1 2. specialize (IH (is_space c)).
  destruct b, (is_space c); simpl in *; lia.
Qed.

Lemma run_starts_pattern b s t :
  map is_space s = map is_space t -> run_starts b s = run_starts b t.
Proof.
  revert b t. induction s as [|c r IH]; intros b [|d t] E;
    try discriminate; [reflexivity|].
  simpl in *. injection E as Ec Er. unfold not_space.
  rewrite Ec. f_equal. now apply IH.
Qed.

Lemma filter_take_skip (p : codepoint -> bool) s :
  filter p s = take_while p s ++ filter p (skip_while p s).
Proof.
  induction s as [|c r IH]; simpl; [reflexivity|].
  destruct (p c) eqn:E; simpl; [now rewrite IH | now rewrite E].
Qed.

Lemma split_tokens s :
  Forall (fun t => t <> [] /\ forallb not_space t = true) (split s)
  /\ concat (split s) = filter not_space s.
Proof.
  funelim (split s); simp split; simpl.
  - split; [constructor | reflexivity].
  - rewrite (not_space_false c Heq). assumption.
  - assert (Hc : not_space c = true) by (unfold not_space; now rewrite Heq).
    rewrite Hc. destruct H as [HF HC]. split.
    + constructor; [|exact HF]. split; [discriminate|].
      simpl. rewrite Hc. apply take_while_all.
    + rewrite HC. f_equal. symmetry. apply filter_take_skip.
Qed.

Lemma count_words_scan (World : Type) (st : World) (s : str) :
  count_words (PyStr s) st
  = (Return {| word_count := Z.of_nat (run_starts true s);
               success := true;
               message := success_message |}, st).
Proof. now rewrite count_words_str, word_count_split, split_length. Qed.

(** A string is trimmed when it neither begins nor ends with whitespace. *)
Definition begins_with_space (s : str) : bool :=
  match s with
  | c :: _ => is_space c
  | [] => false
  end.

Definition is_trimmed (s : str) : bool :=
  negb (begins_with_space s) && negb (begins_with_space (rev s)).

Lemma skip_while_head s : begins_with_space (skip_while is_space s) = false.
Proof.
  induction s as [|c r IH]; simpl; [reflexivity|].
  destruct (is_space c) eqn:E; [exact IH | exact E].
Qed.

Lemma skip_while_id s :
  begins_with_space s = false -> skip_while is_space s = s.
Proof. destruct s as [|c r]; simpl; [reflexivity|]. now intros ->. Qed.

Lemma strip_is_trimmed s : is_trimmed (strip s) = true.
Proof.
  unfold is_trimmed, strip, rstrip, lstrip.
  set (u := skip_while is_space s).
  rewrite rev_involutive, skip_while_head, andb_true_r.
  pose proof (take_skip_while is_space (rev u)) as E.
  apply (f_equal (@rev _)) in E. rewrite rev_app_distr, rev_involutive in E.
  destruct (rev (skip_while is_space (rev u))) as [|d l]; [reflexivity|].
  simpl in E. pose proof (skip_while_head s) as H. fold u in H.
  rewrite <- E in H. simpl in H. simpl. now rewrite H.
Qed.

Lemma strip_padded w1 t w2 :
  all_space w1 = true -> all_space w2 = true -> is_trimmed t = true ->
  strip (w1 ++ t ++ w2) = t.
Proof.
  intros H1 H2 Ht. unfold strip, lstrip, rstrip.
  rewrite skip_while_all by exact H1.
  apply andb_prop in Ht as [Hb He].
  apply negb_true_iff in Hb, He.
  assert (E : rev (skip_while is_space (rev (t ++ w2))) = t).
  { rewrite rev_app_distr, skip_while_all
      by (unfold all_space in H2; now rewrite forallb_rev).
    rewrite skip_while_id by exact He. apply rev_involutive. }
  destruct t as [|c r].
  - simpl in *. rewrite <- (app_nil_r w2), skip_while_all by exact H2.
    reflexivity.
  - rewrite (skip_while_id ((c :: r) ++ w2)) by exact Hb. exact E.
Qed.

(** X1: the call of [strip] changes nothing in the outcome: on every string,
    [input.strip().split()] yields the tokens of [input.split()], so the
    reported count is [len(input.split())]. *)
Theorem strip_is_redundant (World : Type) (st : World) (s : str) :
  bind (py_strip (PyStr s)) py_split st = py_split (PyStr s) st
  /\ count_words (PyStr s) st
     = (Return {| word_count := Z.of_nat (length (split s));
                  success := true;
                  message := success_message |}, st).
Proof.
  split.
  - unfold bind, py_strip, py_split, ret. now rewrite split_strip.
  - now rewrite count_words_str, word_count_split.
Qed.




(** X3: on a string the count is 0 only when there is nothing to count:
    [word_count = 0] exactly when the string is empty or all whitespace. *)
Theorem zero_words_iff_blank (World : Type) (st : World) (s : str) :
  exists r,
    fst (count_words (PyStr s) st) = Return r
    /\ (word_count r = 0%Z <-> all_space s = true).
Proof.
  rewrite count_words_scan. eexists. split; [reflexivity|]. simpl.
  rewrite <- run_starts_zero. lia.
Qed.

(** X4: bounds on the count of a string of [n] characters: it is at least 0,
    at most [(n + 1) / 2] (words need a separator between them), and at most
    the number of characters that are no whitespace. *)
Theorem word_count_bounds (World : Type) (st : World) (s : str) :
  exists r,
    fst (count_words (PyStr s) st) = Return r
    /\ (0 <= word_count r)%Z
    /\ (2 * word_count r <= Z.of_nat (length s) + 1)%Z
    /\ (word_count r <= Z.of_nat (length (filter not_space s)))%Z.
Proof.
  rewrite count_words_scan. eexists. split; [reflexivity|].
  cbn [word_count].
  pose proof (run_starts_half true s) as Hhalf. cbv iota in Hhalf.
  pose proof (run_starts_filter true s) as Hfilter.
  lia.
Qed.

(** X5: the tokens that [input.strip().split()] counts are words: each is
    non-empty and free of whitespace, and put together in order they are the
    input with all its whitespace taken out. *)
Theorem tokens_are_the_words (World : Type) (st : World) (s : str) :
  exists tokens,
    bind (py_strip (PyStr s)) py_split st
    = (Return (PyList (map PyStr tokens)), st)
    /\ Forall (fun t => t <> [] /\ forallb not_space t = true) tokens
    /\ concat tokens = filter not_space s.
Proof.
  exists (split s). split.
  - unfold bind, py_strip, py_split, ret. now rewrite split_strip.
  - apply split_tokens.
Qed.

(** X6: putting two strings side by side joins at most one pair of words:
    the count for [s1 ++ s2] is the sum of the two counts, less one when
    [s1] ends in a word and [s2] begins with one. *)
Theorem count_words_juxtapose (World : Type) (st : World) (s1 s2 : str) :
  exists r r1 r2,
    fst (count_words (PyStr (s1 ++ s2)) st) = Return r
    /\ fst (count_words (PyStr s1) st) = Return r1
    /\ fst (count_words (PyStr s2) st) = Return r2
    /\ word_count r
       = (word_count r1 + word_count r2
          - (if last_is_word s1 && first_is_word s2 then 1 else 0))%Z.
Proof.
  rewrite !count_words_scan. do 3 eexists. repeat split.
  cbn [word_count].
  rewrite run_starts_app, end_flag_last.
  destruct (last_is_word s1); cbn [negb andb];
    rewrite ?(run_starts_flag s2); destruct (first_is_word s2); lia.
Qed.

(** X7: any non-empty stretch of whitespace between two strings (spaces,
    tabs, line breaks, ...) keeps their words apart: the count for
    [s1 ++ w ++ s2] is the sum of the counts for [s1] and [s2]. *)
Theorem count_words_separator (World : Type) (st : World) (s1 w s2 : str) :
  w <> [] ->
  all_space w = true ->
  exists r r1 r2,
    fst (count_words (PyStr (s1 ++ w ++ s2)) st) = Return r
    /\ fst (count_words (PyStr s1) st) = Return r1
    /\ fst (count_words (PyStr s2) st) = Return r2
    /\ word_count r = (word_count r1 + word_count r2)%Z.
Proof.
  intros Hne Hw. destruct w as [|c w]; [now destruct Hne|].
  simpl in Hw. apply andb_prop in Hw as [Hc Hw].
  rewrite !count_words_str. do 3 eexists. repeat split. simpl.
  rewrite !word_count_split. change ((c :: w) ++ s2) with (c :: w ++ s2).
  rewrite split_sep, split_lead, length_app by assumption.
  apply Nat2Z.inj_add.
Qed.

Lemma count_words_separator_witness :
  exists r r1 r2,
    fst (count_words (PyStr (lit "to be" ++ [13; 10; 9]%N ++ lit "or not")) tt)
    = Return r
    /\ fst (count_words (PyStr (lit "to be")) tt) = Return r1
    /\ fst (count_words (PyStr (lit "or not")) tt) = Return r2
    /\ word_count r = (word_count r1 + word_count r2)%Z.
Proof.
  apply (count_words_separator unit tt (lit "to be") [13; 10; 9]%N (lit "or not"));
    [discriminate | reflexivity].
Defined.

(** X8: [count_words] looks at nothing but where the whitespace is: two
    strings with whitespace at the same positions get the same result. *)
Theorem count_depends_on_whitespace_only
  (World : Type) (st : World) (s t : str) :
  map is_space s = map is_space t ->
  count_words (PyStr s) st = count_words (PyStr t) st.
Proof.
  intros E. rewrite !count_words_scan.
  now rewrite (run_starts_pattern true s t E).
Qed.

Lemma count_depends_on_whitespace_only_witness :
  count_words (PyStr (lit "it's 9 o'clock")) tt
  = count_words (PyStr ([0x4E16; 0x754C; 33; 63; 0x3000; 55; 9]%N ++ lit "o.clock")) tt.
Proof.
  apply (count_depends_on_whitespace_only unit tt). reflexivity.
Defined.

(** X9: what [strip] returns. The input is the result between a whitespace
    prefix and a whitespace suffix; the result neither begins nor ends with
    whitespace; it is the only such part of the input; and stripping it again
    changes nothing. *)
Theorem strip_characterised (s : str) :
  (exists w1 w2,
      all_space w1 = true /\ all_space w2 = true /\ s = w1 ++ strip s ++ w2)
  /\ is_trimmed (strip s) = true
  /\ (forall w1 t w2,
         all_space w1 = true -> all_space w2 = true -> is_trimmed t = true ->
         s = w1 ++ t ++ w2 -> t = strip s)
  /\ strip (strip s) = strip s.
Proof.
  split; [apply strip_spec|]. split; [apply strip_is_trimmed|]. split.
  - intros w1 t w2 H1 H2 Ht ->. symmetry. now apply strip_padded.
  - pose proof (strip_padded [] (strip s) [] eq_refl eq_refl
                  (strip_is_trimmed s)) as E.
    simpl in E. now rewrite app_nil_r in E.
Qed.

Lemma strip_characterised_witness :
  lit "a  b" = strip ([9; 32]%N ++ lit "a  b" ++ [10]%N).
Proof.
  destruct (strip_characterised ([9; 32]%N ++ lit "a  b" ++ [10]%N))
    as (_ & _ & H & _).
  apply (H [9; 32]%N (lit "a  b") [10]%N); reflexivity.
Defined.

(** ** The tokens are the maximal runs *)

Lemma filter_prod_flat_map (f : nat -> nat -> bool) l1 l2 :
  filter (fun ij => f (fst ij) (snd ij)) (list_prod l1 l2)
  = flat_map (fun i => map (pair i) (filter (f i) l2)) l1.
Proof.
  induction l1 as [|a l1 IH]; simpl; [reflexivity|].
  rewrite filter_app, IH. f_equal. clear IH.
  induction l2 as [|b l2 IH2]; simpl; [reflexivity|].
  destruct (f a b); simpl; now rewrite IH2.
Qed.

Lemma filter_eqb_seq_list x a m :
  filter (fun j => j =? x) (seq a m)
  = if (a <=? x) && (x <? a + m) then [x] else [].
Proof.
  revert a. induction m as [|m IH]; intros a; simpl.
  - cmp; simpl; lia || reflexivity.
  - destruct (Nat.eqb_spec a x); simpl; rewrite (IH (S a));
      cmp; simpl; try lia; try reflexivity; now subst.
Qed.

(** The runs that start at [i]: one, up to [run_end s i], when a word starts
    there, and none otherwise. *)
Definition run_from (prev_space : bool) (s : str) (i : nat) : list (nat * nat) :=
  if is_start prev_space s i then [(i, run_end s i)] else [].

Lemma flat_map_ext_in {A B} (f g : A -> list B) l :
  (forall a, In a l -> f a = g a) -> flat_map f l = flat_map g l.
Proof.
  induction l as [|a l IH]; intros H; simpl; [reflexivity|].
  rewrite (H a), IH; auto with datatypes.
Qed.

Lemma maximal_runs_from s :
  maximal_runs s = flat_map (run_from true s) (positions s).
Proof.
  unfold maximal_runs. rewrite filter_prod_flat_map.
  apply flat_map_ext_in. intros i Hi.
  assert (Hle : i <= length s)
    by (unfold positions in Hi; apply in_seq in Hi; lia).
  unfold run_from. destruct (is_start true s i) eqn:E.
  - rewrite (filter_ext _ (fun j => j =? run_end s i))
      by (intros j; now rewrite is_maximal_run_end, E).
    unfold positions. rewrite filter_eqb_seq_list.
    pose proof (run_end_le s i Hle).
    cmp; simpl; try reflexivity; exfalso; lia.
  - rewrite (filter_ext _ (fun _ => false))
      by (intros j; now rewrite is_maximal_run_end, E).
    clear Hi. induction (positions s); simpl; auto.
Qed.

(** The slices of [s] that its maximal runs delimit, from left to right. *)
Definition run_slices (s : str) : list str :=
  map (fun ij => slice (fst ij) (snd ij) s) (maximal_runs s).

(** The same, found by one pass over the string. *)
Fixpoint scan_runs (prev_space : bool) (s : str) : list str :=
  match s with
  | [] => []
  | c :: r =>
      (if prev_space && not_space c then [take_while not_space s] else [])
      ++ scan_runs (is_space c) r
  end.

Lemma slice_run s : slice 0 (run_end s 0) s = take_while not_space s.
Proof.
  unfold slice, run_end. simpl. rewrite Nat.sub_0_r.
  induction s as [|c r IH]; simpl; [reflexivity|].
  destruct (not_space c); simpl; [now rewrite IH | reflexivity].
Qed.

Lemma slices_from b s :
  flat_map (fun i => map (fun ij => slice (fst ij) (snd ij) s) (run_from b s i))
           (positions s)
  = scan_runs b s.
Proof.
  unfold positions. revert b. induction s as [|c r IH]; intros b.
  - reflexivity.
  - cbn [length scan_runs]. rewrite <- (IH (is_space c)).
    change (seq 0 (S (S (length r)))) with (0 :: seq 1 (S (length r))).
    rewrite <- seq_shift. cbn [flat_map]. f_equal.
    + unfold run_from, is_start, starts_at. cbn [nth_error Nat.eqb].
      rewrite andb_comm.
      destruct (b && not_space c); [|reflexivity].
      cbn [map fst snd]. now rewrite slice_run.
    + rewrite flat_map_concat_map, map_map, <- flat_map_concat_map.
      apply flat_map_ext. intros i. unfold run_from.
      rewrite is_start_cons. destruct (is_start (is_space c) r i); reflexivity.
Qed.

Lemma scan_runs_skip r :
  scan_runs false r = scan_runs true (skip_while not_space r).
Proof.
  induction r as [|c r IH]; [reflexivity|].
  cbn [scan_runs skip_while andb]. unfold not_space.
  destruct (is_space c) eqn:E; cbn [negb app].
  - cbn [scan_runs]. unfold not_space. now rewrite E.
  - exact IH.
Qed.

Lemma split_scan_runs s : split s = scan_runs true s.
Proof.
  funelim (split s); simp split.
  - reflexivity.
  - cbn [scan_runs andb]. rewrite (not_space_false c Heq), Heq. exact H.
  - cbn [scan_runs andb take_while].
    assert (Hc : not_space c = true) by (unfold not_space; now rewrite Heq).
    rewrite Hc, Heq, scan_runs_skip. cbn [app]. f_equal. auto.
Qed.

Lemma run_slices_split s : run_slices s = split s.
Proof.
  unfold run_slices. rewrite maximal_runs_from, split_scan_runs.
  rewrite <- slices_from, flat_map_concat_map, concat_map, map_map.
  now rewrite <- flat_map_concat_map.
Qed.

(** X10: the tokens that [input.strip().split()] counts are exactly the
    maximal non-whitespace runs of the input, from left to right. *)
Theorem tokens_are_the_maximal_runs (World : Type) (st : World) (s : str) :
  bind (py_strip (PyStr s)) py_split st
  = (Return (PyList (map PyStr (run_slices s))), st).
Proof.
  unfold bind, py_strip, py_split, ret.
  now rewrite split_strip, run_slices_split.
Qed.
